(** * Forte examples: the NER/SRL configuration, the data-augmentation
    tutorial notebook and the IMDB command sequence

  The material verified here is declarative: a YAML document with the
  hyper-parameters of the NER and SRL models, a Jupyter notebook whose single
  code cell configures a [ReplacementDataAugmentProcessor], and seven lines of
  shell.  Each document is embedded as the data it is (a tree of mappings and
  scalars, a list of cells, a list of lines); the few functions needed to
  read them (path lookup, tag resolution of plain scalars, word splitting,
  execution of the code cell on a namespace) are executable. *)

From Stdlib Require Import ZArith Ascii String List.
From stdpp Require Import base option list strings gmap.

Local Open Scope string_scope.
Local Open Scope Z_scope.

(** ** Strings *)

Module Text.

(** The double-quote character, code point 34. *)
Definition dq : string := String (ascii_of_nat 34) EmptyString.

(** [contains needle hay]: [needle] occurs in [hay] as a substring. *)
Fixpoint contains (needle hay : string) : bool :=
  String.prefix needle hay
  || match hay with
     | EmptyString => false
     | String _ rest => contains needle rest
     end.

(** Splitting at a separator character; two adjacent separators delimit an
    empty field, as Python's [str.split(sep)] has it. *)
Fixpoint split_on (sep : ascii) (s : string) : list string :=
  match s with
  | EmptyString => [EmptyString]
  | String a rest =>
      if Ascii.eqb a sep then EmptyString :: split_on sep rest
      else match split_on sep rest with
           | [] => [String a EmptyString]
           | w :: ws => String a w :: ws
           end
  end.

(** Leading blanks removed. *)
Fixpoint lstrip (s : string) : string :=
  match s with
  | String a rest => if Ascii.eqb a " "%char then lstrip rest else s
  | EmptyString => EmptyString
  end.

Definition digit_of (a : ascii) : option Z :=
  let n := Z.of_N (N_of_ascii a) in
  if (48 <=? n) && (n <=? 57) then Some (n - 48) else None.

Fixpoint digits_acc (acc : Z) (s : string) : option Z :=
  match s with
  | EmptyString => Some acc
  | String a rest =>
      match digit_of a with
      | Some d => digits_acc (10 * acc + d) rest
      | None => None
      end
  end.

(** A non-empty run of decimal digits, read as a number. *)
Definition parse_digits (s : string) : option Z :=
  match s with
  | EmptyString => None
  | _ => digits_acc 0 s
  end.

End Text.

(** ** The YAML configuration (src/unnamed/part_000) *)

Module Yaml.

(** How a scalar is written: bare, between single quotes, between double
    quotes.  Only a bare (plain) scalar is subject to tag resolution. *)
Inductive style := Plain | SingleQuoted | DoubleQuoted.

(** A document node.  The file has no sequences, anchors or multi-line
    scalars, so mappings and scalars are all there is.  A mapping keeps its
    entries in file order; keys are stored by their text (the keys ['type']
    and ["type"] are written quoted, all others bare). *)
#[warnings="-register-all"] Inductive yaml :=
| YScalar (st : style) (text : string)
| YMap (entries : list (string * yaml)).

Definition plain (text : string) : yaml := YScalar Plain text.
Definition squoted (text : string) : yaml := YScalar SingleQuoted text.
Definition dquoted (text : string) : yaml := YScalar DoubleQuoted text.

(** The document, entry by entry. *)
Definition config : yaml :=
  YMap [
    ("NER", YMap [
      ("config_data", YMap [
        ("max_char_length", plain "45");
        ("num_char_pad", plain "2") ]);
      ("config_model", YMap [
        ("resource_dir", dquoted "resources/ner");
        ("output_hidden_size", plain "128");
        ("dropout_rate", plain "0.3");
        ("char_emb", YMap [
          ("dim", plain "30");
          ("initializer", YMap [
            ("type", squoted "normal_") ]) ]);
        ("char_cnn_conv", YMap [
          ("in_channels", plain "30");
          ("out_channels", plain "30");
          ("kernel_size", plain "3");
          ("padding", plain "2") ]);
        ("bilstm_sentence_encoder", YMap [
          ("rnn_cell_fw", YMap [
            ("input_size", plain "130");
            ("type", plain "LSTMCell");
            ("kwargs", YMap [
              ("num_units", plain "128") ]) ]);
          ("rnn_cell_share_config", plain "yes");
          ("output_layer_fw", YMap [
            ("num_layers", plain "0") ]);
          ("output_layer_share_config", plain "yes") ]);
        ("initializer", YMap [
          ("type", dquoted "xavier_uniform_") ]);
        ("random_seed", plain "1234") ]) ]);
    ("SRL", YMap [
      ("storage_path", dquoted "resources/srl");
      ("batcher", YMap [
        ("batch_size", plain "1") ]) ])
  ].

(** The one comment of the file, above [rnn_cell_fw]. *)
Definition input_size_comment : string :=
  "Input size should be the sum of char_embed.dim and word_emb.dim".

(** *** Reading the tree *)

Definition path := list string.

(** The value a mapping gives a key.  Should a mapping write a key twice, the
    later entry is the one kept, as PyYAML keeps it (a YAML 1.2 loader
    refuses such a document; [distinct_keys] below tells whether a document
    has any). *)
Fixpoint lookup_key (k : string) (es : list (string * yaml)) : option yaml :=
  match es with
  | [] => None
  | (k', v) :: rest =>
      match lookup_key k rest with
      | Some later => Some later
      | None => if String.eqb k k' then Some v else None
      end
  end.

(** The node at a path of keys. *)
Fixpoint get (p : path) (t : yaml) : option yaml :=
  match p with
  | [] => Some t
  | k :: p' =>
      match t with
      | YMap es =>
          match lookup_key k es with
          | Some v => get p' v
          | None => None
          end
      | YScalar _ _ => None
      end
  end.

(** Every scalar of the tree with the path that leads to it, in file
    order. *)
Fixpoint leaves (t : yaml) : list (path * (style * string)) :=
  match t with
  | YScalar st s => [([], (st, s))]
  | YMap es =>
      (fix go (es : list (string * yaml)) : list (path * (style * string)) :=
         match es with
         | [] => []
         | (k, v) :: rest =>
             (List.map (fun l => (k :: fst l, snd l)) (leaves v) ++ go rest)%list
         end) es
  end.

(** Every key of every mapping of the tree. *)
Fixpoint all_keys (t : yaml) : list string :=
  match t with
  | YScalar _ _ => []
  | YMap es =>
      (fix go (es : list (string * yaml)) : list string :=
         match es with
         | [] => []
         | (k, v) :: rest => (k :: all_keys v ++ go rest)%list
         end) es
  end.

(** No mapping repeats a key. *)
Fixpoint distinct_keys (t : yaml) : bool :=
  match t with
  | YScalar _ _ => true
  | YMap es =>
      (fix go (seen : list string) (es : list (string * yaml)) : bool :=
         match es with
         | [] => true
         | (k, v) :: rest =>
             negb (existsb (String.eqb k) seen)
             && distinct_keys v && go (k :: seen) rest
         end) [] es
  end.

(** *** Tag resolution

    A YAML loader gives every scalar a type.  A quoted scalar is a string.  A
    plain scalar is matched against the patterns of the schema in force; the
    forms below are those of the YAML 1.1 types (the schema of PyYAML, the
    usual loader of a Python program) and of the YAML 1.2 core schema,
    restricted to the notations this file uses: the boolean words, decimal
    integers without leading zeros and decimal fractions without exponent.
    The two schemas differ on [yes]: a boolean in 1.1, a string in 1.2. *)

Inductive schema := Yaml11 | Core12.

(** A resolved scalar.  [VFloat m k] stands for the decimal fraction
    [m / 10^k] as written in the file; its rounding to a binary double is not
    modelled. *)
Inductive value :=
| VInt (z : Z)
| VFloat (mantissa : Z) (scale : nat)
| VBool (b : bool)
| VStr (s : string).

Definition true_words (sch : schema) : list string :=
  match sch with
  | Yaml11 => ["yes"; "Yes"; "YES"; "true"; "True"; "TRUE"; "on"; "On"; "ON"]
  | Core12 => ["true"; "True"; "TRUE"]
  end.

Definition false_words (sch : schema) : list string :=
  match sch with
  | Yaml11 => ["no"; "No"; "NO"; "false"; "False"; "FALSE"; "off"; "Off"; "OFF"]
  | Core12 => ["false"; "False"; "FALSE"]
  end.

Definition resolve_bool (sch : schema) (s : string) : option bool :=
  if existsb (String.eqb s) (true_words sch) then Some true
  else if existsb (String.eqb s) (false_words sch) then Some false
  else None.

(** An optional sign, split off. *)
Definition split_sign (s : string) : Z * string :=
  match s with
  | String "-"%char rest => (-1, rest)
  | String "+"%char rest => (1, rest)
  | _ => (1, s)
  end.

Definition no_leading_zero (s : string) : bool :=
  match s with
  | String "0"%char (String _ _) => false
  | _ => true
  end.

Definition resolve_int (s : string) : option Z :=
  let (sign, digits) := split_sign s in
  if no_leading_zero digits then
    match Text.parse_digits digits with
    | Some n => Some (sign * n)
    | None => None
    end
  else None.

Definition resolve_float (s : string) : option (Z * nat) :=
  let (sign, body) := split_sign s in
  match Text.split_on "."%char body with
  | [whole; frac] =>
      match Text.parse_digits whole, Text.digits_acc 0 frac with
      | Some w, Some f =>
          let k := String.length frac in
          Some (sign * (w * 10 ^ Z.of_nat k + f), k)
      | _, _ => None
      end
  | _ => None
  end.

Definition resolve (sch : schema) (st : style) (text : string) : value :=
  match st with
  | Plain =>
      match resolve_bool sch text with
      | Some b => VBool b
      | None =>
          match resolve_int text with
          | Some z => VInt z
          | None =>
              match resolve_float text with
              | Some (m, k) => VFloat m k
              | None => VStr text
              end
          end
      end
  | SingleQuoted | DoubleQuoted => VStr text
  end.

(** The resolved value at a path, when the path leads to a scalar. *)
Definition value_at (sch : schema) (p : path) (t : yaml) : option value :=
  match get p t with
  | Some (YScalar st s) => Some (resolve sch st s)
  | _ => None
  end.

Definition typed_leaves (sch : schema) (t : yaml) : list (path * value) :=
  List.map (fun l => (fst l, resolve sch (fst (snd l)) (snd (snd l)))) (leaves t).

Definition is_numeric (v : value) : bool :=
  match v with VInt _ | VFloat _ _ => true | VBool _ | VStr _ => false end.

Definition is_integer (v : value) : bool :=
  match v with VInt _ => true | _ => false end.

Definition is_string (v : value) : bool :=
  match v with VStr _ => true | _ => false end.

(** An integer greater than zero. *)
Definition positive_integer (v : value) : bool :=
  match v with VInt z => 0 <? z | _ => false end.

(** A number that is not negative, whatever its type. *)
Definition non_negative (v : value) : bool :=
  match v with VInt z => 0 <=? z | VFloat m _ => 0 <=? m | _ => false end.

(** A decimal fraction denotes a whole number when its mantissa is a multiple
    of [10^scale]. *)
Definition whole_valued (v : value) : bool :=
  match v with
  | VInt _ => true
  | VFloat m k => m mod 10 ^ Z.of_nat k =? 0
  | _ => false
  end.

(** *** Paths of the document *)

Definition ner_model (p : path) : path := "NER" :: "config_model" :: p.
Definition sentence_encoder (p : path) : path :=
  ner_model ("bilstm_sentence_encoder" :: p).

Definition max_char_length_path : path := ["NER"; "config_data"; "max_char_length"].
Definition resource_dir_path : path := ner_model ["resource_dir"].
Definition dropout_rate_path : path := ner_model ["dropout_rate"].
Definition char_emb_dim_path : path := ner_model ["char_emb"; "dim"].
Definition in_channels_path : path := ner_model ["char_cnn_conv"; "in_channels"].
Definition input_size_path : path := sentence_encoder ["rnn_cell_fw"; "input_size"].
Definition num_units_path : path :=
  sentence_encoder ["rnn_cell_fw"; "kwargs"; "num_units"].
Definition rnn_cell_share_config_path : path :=
  sentence_encoder ["rnn_cell_share_config"].
Definition num_layers_path : path :=
  sentence_encoder ["output_layer_fw"; "num_layers"].
Definition output_layer_share_config_path : path :=
  sentence_encoder ["output_layer_share_config"].
Definition storage_path_path : path := ["SRL"; "storage_path"].

(** *** Properties of a document *)

(** Every numeric leaf is a positive integer. *)
Definition numeric_fields_positive (sch : schema) (t : yaml) : Prop :=
  forall p v, value_at sch p t = Some v ->
    is_numeric v = true -> positive_integer v = true.

(** Every leaf is an integer or a string. *)
Definition leaves_integer_or_string (sch : schema) (t : yaml) : Prop :=
  forall p v, value_at sch p t = Some v ->
    is_integer v = true \/ is_string v = true.

(** The comment above [rnn_cell_fw] as a constraint: the input size is the
    sum of the character-embedding dimension (the key [char_emb.dim]; the
    comment spells it [char_embed.dim]) and of a word-embedding dimension,
    for which the file has no key and which is therefore an argument. *)
Definition input_size_constraint (sch : schema) (t : yaml) (word_dim : Z) : bool :=
  match value_at sch input_size_path t, value_at sch char_emb_dim_path t with
  | Some (VInt i), Some (VInt c) => i =? c + word_dim
  | _, _ => false
  end.

(** By how much the input size exceeds the character-embedding dimension. *)
Definition input_size_excess (sch : schema) (t : yaml) : option Z :=
  match value_at sch input_size_path t, value_at sch char_emb_dim_path t with
  | Some (VInt i), Some (VInt c) => Some (i - c)
  | _, _ => None
  end.

Definition has_key (k : string) (t : yaml) : bool :=
  existsb (String.eqb k) (all_keys t).

End Yaml.

(** ** The tutorial notebook
       (src/examples/data_augmentation/tutorial_for_data_augmentation.ipynb) *)

Module Notebook.

Inductive cell_type := Markdown | Code.

Record cell := { kind : cell_type; source : list string }.

(** The [source] of each cell, one string per line, after JSON decoding and
    without the line terminators. *)

(** Cell 0 (markdown): the title. *)
Definition title_cell_source : list string := [
  "# This is a tutorial for the data augmentation. " ].

(** Cell 1 (markdown): the introduction. *)
Definition intro_cell_source : list string := [
  "You can use the data augmentation by simply add a processor in the "
    ++ "pipeline. Take Back-Translation for an example:" ].

(** Cell 2 (code): the only code cell, as text. *)
Definition code_cell_source : list string := [
  "from forte.processors.base.data_augment_processor import "
    ++ "ReplacementDataAugmentProcessor";
  "from forte.pipeline import Pipeline";
  EmptyString;
  "nlp = Pipeline[MultiPack]()";
  EmptyString;
  "# Configuration for the data augmentation processor.";
  "processor_config = {";
  "    'augment_entry': 'ft.onto.base_ontology.Token',";
  "    'other_entry_policy': {";
  "        'kwargs': {";
  "            'ft.onto.base_ontology.Document': 'auto_align',";
  "            'ft.onto.base_ontology.Sentence': 'auto_align'";
  "        }";
  "    },";
  "    'type': 'data_augmentation_op',";
  "    'data_aug_op': "
    ++ "'forte.processors.data_augment.algorithms.back_translation_op.BackTr"
    ++ "anslationOp',";
  "    'data_aug_op_config': {";
  "        'kwargs': {";
  "            'model_to': "
    ++ "'forte.processors.data_augment.algorithms.machine_translator.MarianM"
    ++ "achineTranslator',";
  "            'model_back': "
    ++ "'forte.processors.data_augment.algorithms.machine_translator.MarianM"
    ++ "achineTranslator',";
  "            'src_language': 'en',";
  "            'tgt_language': 'fr',";
  "            'device': 'cpu'";
  "        }";
  "    }";
  "}";
  EmptyString;
  "processor = ReplacementDataAugmentProcessor()";
  "nlp.add(component=processor, configs=processor_config)" ].

(** Cell 3 (markdown): the text replacement ops. *)
Definition ops_cell_source : list string := [
  "## Text Replacement Ops";
  EmptyString;
  "Lots of data augmentation methods can be considered as "
    ++ "replacement-based approaches. That means, given a piece of input "
    ++ "text, we will replace it with a new piece of augmented text. The "
    ++ "back translation achieves this by translating the input into "
    ++ "another language, then translating it back, and replacing the input "
    ++ "with back-translated text.";
  EmptyString;
  "We wrapped these algorithms as the text replacement ops:";
  EmptyString;
  "1. *`DictionaryReplacementOp`*:";
  "    It utilizes the dictionaries, such as WORDNET, to replace the "
    ++ "input word.";
  "2. *`BackTranslationOp`*:";
  "    It uses back translation to generate data with the same "
    ++ "semantic meanings.";
  "3. *`DistributionReplacementOp`*:";
  "    It samples from a distribution to generate word-level new text.";
  "4. *`EmbeddingSimilarityOp`*:";
  "    It leverages pre-trained word embeddings, such as word2vec and "
    ++ "glove, to replace the input word with another word with similar "
    ++ "word embedding.";
  EmptyString;
  "The replacement ops should be under the "
    ++ "*`'forte.processors.data_augment.algorithms'`*. To use these "
    ++ "algorithms, set the value of *`'data_aug_op'`* in the configuration "
    ++ "to full qualified name of the replacement op, and set the "
    ++ "configuration of the replacement op in the *`'kwargs'`* under the "
    ++ "field *`'data_aug_op_config'`*. Please check the documentation for "
    ++ "specific configuration requirements of each replacement op." ].

(** Cell 4 (markdown): the replacement-based processor. *)
Definition processor_cell_source : list string := [
  "## Replacement-based Processor";
  EmptyString;
  "The processor *`'ReplacementDataAugmentProcessor'`* is responsible "
    ++ "for managing the Forte data structures. Given a *`MultiPack`* as "
    ++ "input, it will call the text replacement op to implement a specific "
    ++ "data augmentation algorithm. Afterwards, it will handle the Forte "
    ++ "data structures automatically. The output is the original "
    ++ "*`MultiPack`*, with orignal *`DataPack`*s and new augmented "
    ++ "*`DataPack`*s.";
  EmptyString;
  "For example, given an input *`MultiPack`*:";
  EmptyString;
  "    input(MultiPack){";
  "        dp1(DataPack): {";
  "            " ++ Text.dq ++ "I love NLP!" ++ Text.dq;
  "        }";
  "        dp2(DataPack): {";
  "            " ++ Text.dq ++ "Forte makes NLP easier." ++ Text.dq;
  "        }";
  "    }";
  EmptyString;
  "The output should be the same *`MultiPack`* with new *`DataPack`*s:";
  EmptyString;
  "    output(MultiPack){";
  "        dp1(DataPack): {";
  "            " ++ Text.dq ++ "I love NLP!" ++ Text.dq;
  "        }";
  "        dp2(DataPack): {";
  "            " ++ Text.dq ++ "Forte makes NLP easier." ++ Text.dq;
  "        }";
  "        dp1-aug(DataPack): {";
  "            "
    ++ Text.dq
    ++ "I love Natural Language Processing!"
    ++ Text.dq;
  "        }";
  "        dp2-aug(DataPack): {";
  "            "
    ++ Text.dq
    ++ "Forte makes Natural Language Processing easier."
    ++ Text.dq;
  "        }";
  "    }";
  EmptyString;
  "The *`'augment_entry'`* defines the entry the processor will "
    ++ "augment. It should be a full qualified name of the entry class.";
  EmptyString;
  "The *`'other_entry_policy'`* specifies the policies for entries "
    ++ "other than the *`'augment_entry'`*. If the policy is "
    ++ "*`'auto_align'`*, the span of the Annotation will be automatically "
    ++ "modified according to its original location.";
  EmptyString;
  "The *`Link`*, *`MultiPackLink`*, *`Group`* and *`MultiPackGroup`* "
    ++ "are automatically copied if the *`Annotation`*s they attached to "
    ++ "are present in the new *`DataPack`*." ].

Definition cells : list cell := [
  {| kind := Markdown; source := title_cell_source |};
  {| kind := Markdown; source := intro_cell_source |};
  {| kind := Code; source := code_cell_source |};
  {| kind := Markdown; source := ops_cell_source |};
  {| kind := Markdown; source := processor_cell_source |} ].

Definition lines_of (k : cell_type) : list string :=
  concat (List.map source
    (List.filter (fun c => match kind c, k with
                           | Markdown, Markdown | Code, Code => true
                           | _, _ => false
                           end) cells)).

Definition all_lines : list string := concat (List.map source cells).

(** *** The dictionary literal of the code cell *)

(** The values that occur in the literal: strings and dictionaries keyed by
    strings.  A dictionary keeps its items in the order written. *)
#[warnings="-register-all"] Inductive pyval :=
| PStr (s : string)
| PDict (items : list (string * pyval)).

Definition processor_config_items : list (string * pyval) := [
  ("augment_entry", PStr "ft.onto.base_ontology.Token");
  ("other_entry_policy", PDict [
    ("kwargs", PDict [
      ("ft.onto.base_ontology.Document", PStr "auto_align");
      ("ft.onto.base_ontology.Sentence", PStr "auto_align") ]) ]);
  ("type", PStr "data_augmentation_op");
  ("data_aug_op",
   PStr ("forte.processors.data_augment.algorithms"
         ++ ".back_translation_op.BackTranslationOp"));
  ("data_aug_op_config", PDict [
    ("kwargs", PDict [
      ("model_to",
       PStr ("forte.processors.data_augment.algorithms"
             ++ ".machine_translator.MarianMachineTranslator"));
      ("model_back",
       PStr ("forte.processors.data_augment.algorithms"
             ++ ".machine_translator.MarianMachineTranslator"));
      ("src_language", PStr "en");
      ("tgt_language", PStr "fr");
      ("device", PStr "cpu") ]) ]) ].

Definition processor_config : pyval := PDict processor_config_items.

(** A dictionary display evaluates its items left to right, a later item
    overwriting an earlier one with the same key. *)
Definition dict_of (items : list (string * pyval)) : gmap string pyval :=
  fold_left (fun m kv => <[fst kv := snd kv]> m) items ∅.

Definition as_dict (v : pyval) : gmap string pyval :=
  match v with
  | PDict items => dict_of items
  | PStr _ => ∅
  end.

(** The keys in insertion order, each once. *)
Definition keys (v : pyval) : list string :=
  match v with
  | PDict items =>
      fold_left (fun ks kv =>
                   if existsb (String.eqb (fst kv)) ks then ks
                   else (ks ++ [fst kv])%list) items []
  | PStr _ => []
  end.

(** Subscription [v[k]]; [None] stands for the [KeyError] (or, on a string,
    the [TypeError]). *)
Definition getitem (k : string) (v : pyval) : option pyval := as_dict v !! k.

Definition as_str (v : pyval) : option string :=
  match v with PStr s => Some s | PDict _ => None end.

(** *** Qualified names *)

Definition components (qualname : string) : list string :=
  Text.split_on "."%char qualname.

(** The last component: the class. *)
Definition class_of (qualname : string) : string :=
  List.last (components qualname) EmptyString.

(** Everything before the last component: the module. *)
Definition module_of (qualname : string) : list string :=
  List.removelast (components qualname).

Fixpoint starts_with (pre l : list string) : bool :=
  match pre, l with
  | [], _ => true
  | a :: pre', b :: l' => String.eqb a b && starts_with pre' l'
  | _ :: _, [] => false
  end.

(** [qualname] names something inside the package [pkg]: its module path
    begins with the components of [pkg]. *)
Definition under (pkg qualname : string) : bool :=
  starts_with (components pkg) (module_of qualname).

(** The package the ops cell asks every replacement op to be under. *)
Definition ops_package : string := "forte.processors.data_augment.algorithms".

(** The four replacement ops the ops cell lists, in its order. *)
Definition replacement_ops : list string :=
  ["DictionaryReplacementOp"; "BackTranslationOp";
   "DistributionReplacementOp"; "EmbeddingSimilarityOp"].

(** A line that opens the definition of [name]: a [class] or [def]
    statement, indented or not. *)
Definition defines (name line : string) : bool :=
  String.prefix ("class " ++ name) (Text.lstrip line)
  || String.prefix ("def " ++ name) (Text.lstrip line).

(** A line that opens any class or function definition. *)
Definition opens_definition (line : string) : bool := defines EmptyString line.

End Notebook.

(** ** The command sequence (the seven lines that follow the notebook in the
       same file: three comments and four commands, to be run under
       examples/da_rl) *)

Module Shell.

Definition script : list string := [
  "# under examples/da_rl dir";
  "# prepare data";
  "python download_imdb.py";
  "python utils/imdb_format.py --raw_data_dir=data/IMDB_raw/aclImdb "
    ++ "--train_id_path=data/IMDB_raw/train_id_list.txt "
    ++ "--output_dir=data/IMDB";
  "python prepare_dataset.py";
  "# run model";
  "python main.py --do-train --do-eval --do-test" ].

(** A line whose first non-blank character is [#] is a comment. *)
Definition is_comment (line : string) : bool :=
  String.prefix "#" (Text.lstrip line).

Definition non_empty (s : string) : bool :=
  match s with EmptyString => false | String _ _ => true end.

(** The words of a line: the shell splits at blanks (no line of the script
    has quotes, variables or operators). *)
Definition words (line : string) : list string :=
  List.filter non_empty (Text.split_on " "%char line).

(** One invocation: the program, the script handed to it, and the arguments
    of the script. *)
Record command := { program : string; target : string; args : list string }.

Definition parse_command (line : string) : option command :=
  match words line with
  | prog :: tgt :: rest => Some {| program := prog; target := tgt; args := rest |}
  | _ => None
  end.

(** The invocations of the script, in order. *)
Definition commands : list command :=
  omap parse_command (List.filter (fun l => negb (is_comment l)) script).

Definition run_flags : list string := ["--do-train"; "--do-eval"; "--do-test"].

(** The command is given each of the three flags. *)
Definition has_run_flags (c : command) : bool :=
  forallb (fun f => existsb (String.eqb f) (args c)) run_flags.

(** The command is given at least one of the three flags. *)
Definition has_some_run_flag (c : command) : bool :=
  existsb (fun f => existsb (String.eqb f) (args c)) run_flags.

End Shell.

(** ** Running the code cell

    The cell is six statements: two imports, three assignments and a method
    call.  What the notebook itself decides is which names are read and which
    are bound, in what order, and what is passed to whom.  What the imported
    framework does (whether an import succeeds, what a constructor or [add]
    returns, changes or raises) is not in the notebook and is left open: it
    is a parameter, the [world].  One thing is assumed of it, as of any
    library: it works on its own objects and does not rebind the names of the
    notebook's kernel. *)

Module Runtime.

Import Notebook.

(** The interpreter raises [NameError] for a name that is not bound; whatever
    the framework raises is [Foreign], with the name of the exception. *)
Inductive exn := NameError (name : string) | Foreign (what : string).

Inductive outcome (A : Type) :=
| Done (a : A)
| Raised (e : exn).
Arguments Done {A} a.
Arguments Raised {A} e.

(** The framework and the interpreter's allocator, as far as the cell uses
    them.  [H] is whatever state they keep (the modules loaded, the objects
    alive); the cell knows an object by its identity, a number.
    - [import_from m n]: the object [n] of module [m], or the import's
      exception;
    - [subscript c a]: [c[a]];
    - [call f kwargs]: [f(k1=v1, ...)], the keywords as written;
    - [getattr o a]: [o.a];
    - [new_dict v]: the dictionary a display evaluates to. *)
Record world (H : Type) := {
  import_from : string -> string -> H -> outcome nat * H;
  subscript : nat -> nat -> H -> outcome nat * H;
  call : nat -> list (string * nat) -> H -> outcome nat * H;
  getattr : nat -> string -> H -> outcome nat * H;
  new_dict : pyval -> H -> nat * H }.
Arguments import_from {H} w m n h.
Arguments subscript {H} w c a h.
Arguments call {H} w f kwargs h.
Arguments getattr {H} w o a h.
Arguments new_dict {H} w v h.

(** The kernel: the names bound, and the framework's state. *)
Record state (H : Type) := { names : gmap string nat; heap : H }.
Arguments names {H} s.
Arguments heap {H} s.

Definition M (H A : Type) : Type := state H -> outcome A * state H.

#[global] Instance M_ret {H} : MRet (M H) := fun A a st => (Done a, st).

(** Sequencing stops at the first exception and keeps the state reached. *)
#[global] Instance M_bind {H} : MBind (M H) := fun A B k m st =>
  match m st with
  | (Done a, st') => k a st'
  | (Raised e, st') => (Raised e, st')
  end.

(** Reading a name; an unbound name raises [NameError]. *)
Definition load {H} (x : string) : M H nat :=
  fun st =>
    match names st !! x with
    | Some l => (Done l, st)
    | None => (Raised (NameError x), st)
    end.

(** Binding (or rebinding) a name. *)
Definition assign {H} (x : string) (l : nat) : M H unit :=
  fun st => (Done tt, {| names := <[x := l]> (names st); heap := heap st |}).

(** A step of the framework: it sees and changes the framework's state, not
    the names. *)
Definition foreign {H A} (f : H -> outcome A * H) : M H A :=
  fun st =>
    let (r, h) := f (heap st) in (r, {| names := names st; heap := h |}).

(** A step of the allocator, which does not fail. *)
Definition build {H} (f : H -> nat * H) : M H nat :=
  fun st =>
    let (l, h) := f (heap st) in (Done l, {| names := names st; heap := h |}).

Definition processor_module : string :=
  "forte.processors.base.data_augment_processor".

Section Cell.

Context {H : Type} (w : world H).

(** [from forte.processors.base.data_augment_processor import
    ReplacementDataAugmentProcessor] *)
Definition import_processor : M H unit :=
  c ← foreign (import_from w processor_module "ReplacementDataAugmentProcessor");
  assign "ReplacementDataAugmentProcessor" c.

(** [from forte.pipeline import Pipeline] *)
Definition import_pipeline : M H unit :=
  c ← foreign (import_from w "forte.pipeline" "Pipeline");
  assign "Pipeline" c.

(** [nlp = Pipeline[MultiPack]()] *)
Definition make_pipeline : M H unit :=
  cls ← load "Pipeline";
  arg ← load "MultiPack";
  alias ← foreign (subscript w cls arg);
  pl ← foreign (call w alias []);
  assign "nlp" pl.

(** [processor_config = { ... }] *)
Definition make_config : M H unit :=
  d ← build (new_dict w processor_config);
  assign "processor_config" d.

(** [processor = ReplacementDataAugmentProcessor()] *)
Definition make_processor : M H unit :=
  cls ← load "ReplacementDataAugmentProcessor";
  pr ← foreign (call w cls []);
  assign "processor" pr.

(** [nlp.add(component=processor, configs=processor_config)] *)
Definition add_processor : M H unit :=
  nlp ← load "nlp";
  add ← foreign (getattr w nlp "add");
  c ← load "processor";
  cfg ← load "processor_config";
  _ ← foreign (call w add [("component", c); ("configs", cfg)]);
  mret tt.

(** The code cell, statement by statement. *)
Definition code_cell : M H unit :=
  import_processor;; import_pipeline;; make_pipeline;; make_config;;
  make_processor;; add_processor.

End Cell.

(** The names the cell binds. *)
Definition bound_names : list string :=
  ["ReplacementDataAugmentProcessor"; "Pipeline"; "nlp"; "processor_config";
   "processor"].



Definition present : world nat := {|
  import_from := fun _ n h =>
    (Done (if String.eqb n "Pipeline" then 1%nat else 0%nat), h);
  subscript := fun _ _ h => (Done (2 + h)%nat, S h);
  call := fun _ _ h => (Done (2 + h)%nat, S h);
  getattr := fun _ _ h => (Done (2 + h)%nat, S h);
  new_dict := fun _ h => ((2 + h)%nat, S h) |}.

(** A fresh kernel: no name bound, nothing made. *)
Definition fresh_kernel {H} (h : H) : state H := {| names := ∅; heap := h |}.


End Runtime.

(** ** The material as a whole *)

Module Material.

(** Every piece of text of the configuration: keys, scalars, the comment. *)
Definition yaml_texts : list string :=
  (Yaml.all_keys Yaml.config
   ++ List.map (fun l => snd (snd l)) (Yaml.leaves Yaml.config)
   ++ [Yaml.input_size_comment])%list.

(** Every line of the notebook and of the command sequence, and every text of
    the configuration. *)
Definition shown_text : list string :=
  (Notebook.all_lines ++ Shell.script ++ yaml_texts)%list.

Definition mentions (word : string) (lines : list string) : bool :=
  existsb (Text.contains word) lines.

(** The fully qualified name the code cell gives as [data_aug_op]. *)
Definition data_aug_op : option string :=
  Notebook.getitem "data_aug_op" Notebook.processor_config
    ≫= Notebook.as_str.

(** The keyword arguments configured for the op. *)
Definition data_aug_op_kwargs : option Notebook.pyval :=
  Notebook.getitem "data_aug_op_config" Notebook.processor_config
    ≫= Notebook.getitem "kwargs".


End Material.

(** ** Further readings of the three documents *)

Module YamlEntries.

Import Yaml.

(** The inner loops of [distinct_keys] and [leaves], named: the entries of
    one mapping, read from left to right. *)
Fixpoint entries_distinct (seen : list string) (es : list (string * yaml)) : bool :=
  match es with
  | [] => true
  | (k, v) :: rest =>
      negb (existsb (String.eqb k) seen)
      && distinct_keys v && entries_distinct (k :: seen) rest
  end.

Fixpoint entries_leaves (es : list (string * yaml)) : list (path * (style * string)) :=
  match es with
  | [] => []
  | (k, v) :: rest =>
      (List.map (fun l => (k :: fst l, snd l)) (leaves v) ++ entries_leaves rest)%list
  end.

Fixpoint entries_keys (es : list (string * yaml)) : list string :=
  match es with
  | [] => []
  | (k, v) :: rest => (k :: all_keys v ++ entries_keys rest)%list
  end.

End YamlEntries.

Module Prose.

Import Notebook.

(** The text before the first occurrence of [stop], if there is one. *)
Fixpoint take_until (stop s : string) : option string :=
  if String.prefix stop s then Some EmptyString
  else match s with
       | EmptyString => None
       | String a rest => option_map (String a) (take_until stop rest)
       end.

Fixpoint skip (n : nat) (s : string) : string :=
  match n, s with
  | S n', String _ rest => skip n' rest
  | _, _ => s
  end.

(** The terms a markdown line sets between [*`'] and ['`*], the way the
    notebook writes the names it takes from the code. *)
Fixpoint quoted_terms (s : string) : list string :=
  match s with
  | EmptyString => []
  | String _ rest =>
      ((if String.prefix "*`'" s then
          match take_until "'`*" (skip 3 s) with
          | Some t => [t]
          | None => []
          end
        else []) ++ quoted_terms rest)%list
  end.

Definition prose_terms : list string :=
  concat (List.map quoted_terms (lines_of Markdown)).

(** Every string value of a dictionary, at any depth, in the order written. *)
Fixpoint strings_of (v : pyval) : list string :=
  match v with
  | PStr s => [s]
  | PDict items =>
      (fix go (items : list (string * pyval)) : list string :=
         match items with
         | [] => []
         | (_, v') :: rest => (strings_of v' ++ go rest)%list
         end) items
  end.

Fixpoint all_distinct (l : list string) : bool :=
  match l with
  | [] => true
  | x :: rest => negb (existsb (String.eqb x) rest) && all_distinct rest
  end.

(** No dictionary display, at any depth, writes a key twice. *)
Fixpoint distinct_dict_keys (v : pyval) : bool :=
  match v with
  | PStr _ => true
  | PDict items =>
      all_distinct (List.map fst items)
      && (fix go (items : list (string * pyval)) : bool :=
            match items with
            | [] => true
            | (_, v') :: rest => distinct_dict_keys v' && go rest
            end) items
  end.

(** The target of a [from module import name] line. *)
Definition import_target (line : string) : option string :=
  match Shell.words line with
  | [w1; _; w3; name] =>
      if String.eqb w1 "from" && String.eqb w3 "import" then Some name else None
  | _ => None
  end.

(** The target of an assignment statement that starts at the first column. *)
Definition assign_target (line : string) : option string :=
  match line with
  | String " "%char _ => None
  | _ =>
      match Shell.words line with
      | x :: eq :: _ => if String.eqb eq "=" then Some x else None
      | _ => None
      end
  end.

(** The name a line of the code cell binds, if it binds one. *)
Definition bound_by (line : string) : option string :=
  match import_target line with
  | Some name => Some name
  | None => assign_target line
  end.

(** The entries for which the cell sets a policy. *)
Definition other_entries : list string :=
  match getitem "other_entry_policy" processor_config ≫= getitem "kwargs" with
  | Some v => keys v
  | None => []
  end.

(** The policies it sets for them. *)
Definition other_policies : list string :=
  match getitem "other_entry_policy" processor_config ≫= getitem "kwargs" with
  | Some v => strings_of v
  | None => []
  end.

End Prose.

Module Options.

Import Shell.

(** An argument of the form [--name=value], taken apart at the first [=]. *)
Definition option_of (arg : string) : option (string * string) :=
  if String.prefix "--" arg then
    match Text.split_on "="%char arg with
    | name :: v :: vs => Some (name, String.concat "=" (v :: vs))
    | _ => None
    end
  else None.

(** The value a command gives for the option [name]. *)
Definition option_value (name : string) (c : command) : option string :=
  match List.filter (fun nv => String.eqb (fst nv) name) (omap option_of (args c)) with
  | (_, v) :: _ => Some v
  | [] => None
  end.

Definition segments (p : string) : list string := Text.split_on "/"%char p.

(** [p] is [dir] or lies below it, segment by segment. *)
Definition inside (dir p : string) : bool :=
  Notebook.starts_with (segments dir) (segments p).

(** The format step, the second of the sequence. *)
Definition format_step : option command := commands !! 1%nat.

End Options.

(** * Properties *)

(** ** The configuration tree *)

Section YamlFacts.

Import Yaml.

Lemma lookup_key_leaves k es v p l :
  lookup_key k es = Some v ->
  In (p, l) (leaves v) ->
  In (k :: p, l) (leaves (YMap es)).
Proof.
  induction es as [|[k' v'] rest IH]; simpl; [discriminate|].
  intros Hk Hin. apply in_or_app.
  destruct (lookup_key k rest) as [later|] eqn:L.
  - right. injection Hk as ->. apply IH; [reflexivity | assumption].
  - left. destruct (String.eqb k k') eqn:E; [|discriminate].
    apply String.eqb_eq in E. subst k'.
    injection Hk as ->.
    apply in_map_iff. exists (p, l). split; [reflexivity | assumption].
Qed.

(** A scalar reached by [get] is among the [leaves], under the same path. *)
Lemma get_scalar_in_leaves p : forall t st s,
  get p t = Some (YScalar st s) -> In (p, (st, s)) (leaves t).
Proof.
  induction p as [|k p IH]; intros t st s H.
  - simpl in H. injection H as ->. simpl. left. reflexivity.
  - destruct t as [st' s'|es]; simpl in H; [discriminate|].
    destruct (lookup_key k es) as [v|] eqn:Hk; [|discriminate].
    eapply lookup_key_leaves; eauto.
Qed.

Lemma value_at_typed_leaves sch p t v :
  value_at sch p t = Some v -> In (p, v) (typed_leaves sch t).
Proof.
  unfold value_at, typed_leaves. intros H.
  destruct (get p t) as [[st s|es]|] eqn:G; try discriminate.
  injection H as <-.
  apply in_map_iff. exists (p, (st, s)). split; [reflexivity|].
  apply get_scalar_in_leaves. assumption.
Qed.

(** No mapping of the document repeats a key, so the first-match lookup of
    [get] is the only reading there is. *)
Lemma config_distinct_keys : distinct_keys config = true.
Proof. reflexivity. Qed.

(** The resolved leaves of the document, the same under both schemas but for
    the two [yes]. *)
Lemma typed_leaves_config sch :
  typed_leaves sch config =
  [ (max_char_length_path, VInt 45);
    (["NER"; "config_data"; "num_char_pad"], VInt 2);
    (resource_dir_path, VStr "resources/ner");
    (ner_model ["output_hidden_size"], VInt 128);
    (dropout_rate_path, VFloat 3 1);
    (char_emb_dim_path, VInt 30);
    (ner_model ["char_emb"; "initializer"; "type"], VStr "normal_");
    (in_channels_path, VInt 30);
    (ner_model ["char_cnn_conv"; "out_channels"], VInt 30);
    (ner_model ["char_cnn_conv"; "kernel_size"], VInt 3);
    (ner_model ["char_cnn_conv"; "padding"], VInt 2);
    (input_size_path, VInt 130);
    (sentence_encoder ["rnn_cell_fw"; "type"], VStr "LSTMCell");
    (num_units_path, VInt 128);
    (rnn_cell_share_config_path, resolve sch Plain "yes");
    (num_layers_path, VInt 0);
    (output_layer_share_config_path, resolve sch Plain "yes");
    (ner_model ["initializer"; "type"], VStr "xavier_uniform_");
    (ner_model ["random_seed"], VInt 1234);
    (storage_path_path, VStr "resources/srl");
    (["SRL"; "batcher"; "batch_size"], VInt 1) ].
Proof. destruct sch; vm_compute; reflexivity. Qed.

Lemma resolve_yes sch :
  resolve sch Plain "yes" = match sch with Yaml11 => VBool true | Core12 => VStr "yes" end.
Proof. destruct sch; reflexivity. Qed.

(** Case analysis on the leaf a path leads to: one goal per leaf of the
    document. *)
Ltac leaf_cases H :=
  apply value_at_typed_leaves in H;
  rewrite typed_leaves_config in H;
  simpl In in H;
  repeat (destruct H as [H | H]); [ injection H as <- <- .. | contradiction ].

(** Counterexample to C1 (all numeric fields are positive integers):
    [num_layers] is the integer 0 and [dropout_rate]
    is the fraction 0.3 (mantissa 3, one decimal), which is neither an integer
    nor whole-valued.  Under either schema. *)
Lemma numeric_fields_not_all_positive_integers :
  (value_at Yaml11 num_layers_path config = Some (VInt 0)
   /\ value_at Yaml11 dropout_rate_path config = Some (VFloat 3 1)
   /\ whole_valued (VFloat 3 1) = false
   /\ ~ numeric_fields_positive Yaml11 config)
  /\ ~ numeric_fields_positive Core12 config.
Proof.
  split; [split; [reflexivity | split; [reflexivity | split; [reflexivity|]]]|].
  - intros H. specialize (H num_layers_path (VInt 0) eq_refl eq_refl).
    discriminate H.
  - intros H. specialize (H dropout_rate_path (VFloat 3 1) eq_refl eq_refl).
    discriminate H.
Qed.

(** C1, amended: every numeric leaf of the configuration is a positive
    integer, except [output_layer_fw.num_layers], which is the integer 0, and
    [dropout_rate], which is the decimal fraction 0.3; so every numeric leaf
    is non-negative. *)
Theorem numeric_fields_classified sch p v :
  value_at sch p config = Some v ->
  is_numeric v = true ->
  (positive_integer v = true
   \/ (p = num_layers_path /\ v = VInt 0)
   \/ (p = dropout_rate_path /\ v = VFloat 3 1))
  /\ non_negative v = true.
Proof.
  intros H Hnum. leaf_cases H;
    try rewrite resolve_yes in *;
    try (destruct sch; discriminate Hnum);
    try discriminate Hnum;
    split; try reflexivity;
    first [ left; reflexivity
          | right; left; split; reflexivity
          | right; right; split; reflexivity ].
Qed.

Lemma numeric_fields_classified_witness :
  value_at Yaml11 max_char_length_path config = Some (VInt 45)
  /\ is_numeric (VInt 45) = true
  /\ ((positive_integer (VInt 45) = true
       \/ (max_char_length_path = num_layers_path /\ VInt 45 = VInt 0)
       \/ (max_char_length_path = dropout_rate_path /\ VInt 45 = VFloat 3 1))
      /\ non_negative (VInt 45) = true).
Proof.
  split; [reflexivity | split; [reflexivity|]].
  apply (numeric_fields_classified Yaml11 max_char_length_path (VInt 45));
    reflexivity.
Defined.

(** Counterexample to C2 (every leaf is an integer or a string):
    [dropout_rate] resolves to a float under either
    schema, and the two [yes] resolve to booleans under YAML 1.1. *)
Lemma leaves_not_all_integer_or_string :
  (value_at Yaml11 dropout_rate_path config = Some (VFloat 3 1)
   /\ value_at Yaml11 rnn_cell_share_config_path config = Some (VBool true)
   /\ ~ leaves_integer_or_string Yaml11 config)
  /\ ~ leaves_integer_or_string Core12 config.
Proof.
  split; [split; [reflexivity | split; [reflexivity|]]|].
  - intros H.
    destruct (H dropout_rate_path (VFloat 3 1) eq_refl) as [E | E];
      discriminate E.
  - intros H.
    destruct (H dropout_rate_path (VFloat 3 1) eq_refl) as [E | E];
      discriminate E.
Qed.

(** C2, amended: every leaf of the configuration is an integer or a string,
    except [dropout_rate], which is the float 0.3, and the values of
    [rnn_cell_share_config] and [output_layer_share_config], written [yes],
    which are the boolean true under YAML 1.1 (and strings only under the
    YAML 1.2 core schema). *)
Theorem leaf_types sch p v :
  value_at sch p config = Some v ->
  match v with
  | VInt _ | VStr _ => True
  | VFloat m k => p = dropout_rate_path /\ m = 3 /\ k = 1%nat
  | VBool b =>
      sch = Yaml11 /\ b = true
      /\ (p = rnn_cell_share_config_path \/ p = output_layer_share_config_path)
  end.
Proof.
  intros H. leaf_cases H; try exact I;
    try (split; [reflexivity | split; reflexivity]);
    destruct sch; simpl; try exact I;
    (split; [reflexivity | split; [reflexivity|]]);
    first [ left; reflexivity | right; reflexivity ].
Qed.

Lemma leaf_types_witness :
  value_at Yaml11 dropout_rate_path config = Some (VFloat 3 1)
  /\ (dropout_rate_path = dropout_rate_path /\ 3 = 3 /\ 1%nat = 1%nat).
Proof.
  split; [reflexivity|].
  exact (leaf_types Yaml11 dropout_rate_path (VFloat 3 1) eq_refl).
Defined.

(** C3: the tree has a leaf at [NER.config_data.max_char_length], at
    [NER.config_model.char_emb.dim] and at
    [NER.config_model.bilstm_sentence_encoder.rnn_cell_fw.kwargs.num_units]
    (the integers 45, 30 and 128), and it holds file-system resource paths as
    strings: [resource_dir] is "resources/ner" and [storage_path] is
    "resources/srl", both written between double quotes. *)
Theorem hyperparameter_and_resource_leaves sch :
  value_at sch max_char_length_path config = Some (VInt 45)
  /\ value_at sch char_emb_dim_path config = Some (VInt 30)
  /\ value_at sch num_units_path config = Some (VInt 128)
  /\ get resource_dir_path config = Some (YScalar DoubleQuoted "resources/ner")
  /\ value_at sch resource_dir_path config = Some (VStr "resources/ner")
  /\ get storage_path_path config = Some (YScalar DoubleQuoted "resources/srl")
  /\ value_at sch storage_path_path config = Some (VStr "resources/srl").
Proof. destruct sch; repeat split; reflexivity. Qed.

(** C8: [char_cnn_conv.in_channels] equals [char_emb.dim]; both are 30. *)
Theorem in_channels_equals_char_emb_dim sch :
  value_at sch in_channels_path config = value_at sch char_emb_dim_path config
  /\ value_at sch char_emb_dim_path config = Some (VInt 30).
Proof. destruct sch; split; reflexivity. Qed.

(** C9: [rnn_cell_fw.input_size] is 130 and [char_emb.dim] is 30, so the
    input size exceeds the character-embedding dimension by exactly 100; no
    mapping of the file has a key [word_emb]; and the constraint of the
    file's comment (input size = character dimension + word dimension) holds
    of a word-embedding dimension exactly when that dimension is 100. *)
Theorem input_size_pins_word_dim sch :
  value_at sch input_size_path config = Some (VInt 130)
  /\ value_at sch char_emb_dim_path config = Some (VInt 30)
  /\ input_size_excess sch config = Some 100
  /\ has_key "word_emb" config = false
  /\ Text.contains "sum of char_embed.dim and word_emb.dim" input_size_comment = true
  /\ forall w : Z, input_size_constraint sch config w = (w =? 100).
Proof.
  repeat split; try (destruct sch; reflexivity).
  intros w. unfold input_size_constraint.
  replace (value_at sch input_size_path config) with (Some (VInt 130))
    by (destruct sch; reflexivity).
  replace (value_at sch char_emb_dim_path config) with (Some (VInt 30))
    by (destruct sch; reflexivity).
  destruct (Z.eqb_spec 130 (30 + w)), (Z.eqb_spec w 100); lia || reflexivity.
Qed.

End YamlFacts.

(** ** The notebook *)

Section NotebookFacts.

Import Notebook Material.

(** The notebook has five cells, the third of which is its only code
    cell. *)
Lemma notebook_cell_kinds :
  List.map kind cells = [Markdown; Markdown; Code; Markdown; Markdown]
  /\ lines_of Code = code_cell_source.
Proof. split; reflexivity. Qed.

(** The dictionary literal agrees with the text of the code cell: each of
    its top-level keys opens a line at the first indentation level, and
    there are as many such lines as keys. *)
Lemma processor_config_matches_source :
  forallb (fun k => existsb (String.prefix ("    '" ++ k ++ "': ")) code_cell_source)
          (keys processor_config) = true
  /\ length (List.filter (String.prefix "    '") code_cell_source)
     = length (keys processor_config).
Proof. split; vm_compute; reflexivity. Qed.

Lemma dict_of_processor_config :
  as_dict processor_config =
  <["data_aug_op_config" :=
      PDict [("kwargs", PDict [
        ("model_to",
         PStr "forte.processors.data_augment.algorithms.machine_translator.MarianMachineTranslator");
        ("model_back",
         PStr "forte.processors.data_augment.algorithms.machine_translator.MarianMachineTranslator");
        ("src_language", PStr "en");
        ("tgt_language", PStr "fr");
        ("device", PStr "cpu")])]]>
  (<["data_aug_op" :=
      PStr "forte.processors.data_augment.algorithms.back_translation_op.BackTranslationOp"]>
  (<["type" := PStr "data_augmentation_op"]>
  (<["other_entry_policy" :=
      PDict [("kwargs", PDict [
        ("ft.onto.base_ontology.Document", PStr "auto_align");
        ("ft.onto.base_ontology.Sentence", PStr "auto_align")])]]>
  (<["augment_entry" := PStr "ft.onto.base_ontology.Token"]> ∅)))).
Proof. reflexivity. Qed.

(** C5: [processor_config] has exactly the five top-level keys
    [augment_entry], [other_entry_policy], [type], [data_aug_op] and
    [data_aug_op_config]: they are its keys in the order written, its domain
    as a set, and its size is five. *)
Theorem processor_config_keys :
  keys processor_config =
    ["augment_entry"; "other_entry_policy"; "type"; "data_aug_op";
     "data_aug_op_config"]
  /\ dom (as_dict processor_config) =
       ({["augment_entry"; "other_entry_policy"; "type"; "data_aug_op";
          "data_aug_op_config"]} : gset string)
  /\ size (as_dict processor_config) = 5%nat.
Proof.
  split; [reflexivity|].
  rewrite dict_of_processor_config. split.
  - rewrite !dom_insert_L, dom_empty_L. set_solver.
  - rewrite !map_size_insert_None, map_size_empty; [reflexivity|..];
      repeat (rewrite lookup_insert_ne by discriminate);
      apply lookup_empty.
Qed.

(** C10: the value of [data_aug_op] is the fully qualified name
    [forte.processors.data_augment.algorithms.back_translation_op.BackTranslationOp];
    its module path begins with [forte.processors.data_augment.algorithms],
    the package the ops cell asks every replacement op to be under. *)
Theorem data_aug_op_under_ops_package :
  data_aug_op =
    Some "forte.processors.data_augment.algorithms.back_translation_op.BackTranslationOp"
  /\ option_map module_of data_aug_op =
       Some ["forte"; "processors"; "data_augment"; "algorithms";
             "back_translation_op"]
  /\ option_map (under ops_package) data_aug_op = Some true
  /\ mentions ("The replacement ops should be under the *`'" ++ ops_package ++ "'`*")
              ops_cell_source = true.
Proof. repeat split; vm_compute; reflexivity. Qed.

(** C7: the four replacement ops (dictionary replacement
    [DictionaryReplacementOp], back-translation [BackTranslationOp],
    distribution replacement [DistributionReplacementOp], embedding
    similarity [EmbeddingSimilarityOp]) are each named in the ops cell; one of
    them, [BackTranslationOp], is the class [data_aug_op] names, configured
    with five keyword arguments; and no line of the notebook or of the command
    sequence opens a class or function definition, of these four or of
    anything else, nor does the configuration mention any of the four. *)
Theorem replacement_ops_named_not_defined :
  forallb (fun op => mentions ("*`" ++ op ++ "`*") ops_cell_source)
          replacement_ops = true
  /\ option_map class_of data_aug_op = Some "BackTranslationOp"
  /\ List.filter (fun op => mentions op code_cell_source) replacement_ops
     = ["BackTranslationOp"]
  /\ option_map keys data_aug_op_kwargs =
       Some ["model_to"; "model_back"; "src_language"; "tgt_language"; "device"]
  /\ List.filter opens_definition (all_lines ++ Shell.script) = []
  /\ forallb (fun op => negb (existsb (defines op) shown_text))
             replacement_ops = true
  /\ forallb (fun op => negb (mentions op yaml_texts)) replacement_ops = true.
Proof. repeat split; vm_compute; reflexivity. Qed.

End NotebookFacts.

(** ** The command sequence *)

Section ShellFacts.

Import Shell.

(** C4: the sequence has exactly four invocations, in this order: the
    download script, the format script, the prepare script, the main script;
    the main script is run with [--do-train --do-eval --do-test] and no other
    invocation is given any of these flags. *)
Theorem command_sequence :
  length (List.filter (fun l => negb (is_comment l)) script) = 4%nat
  /\ List.map target commands =
       ["download_imdb.py"; "utils/imdb_format.py"; "prepare_dataset.py";
        "main.py"]
  /\ List.map program commands = ["python"; "python"; "python"; "python"]
  /\ List.map args commands =
       [ [];
         ["--raw_data_dir=data/IMDB_raw/aclImdb";
          "--train_id_path=data/IMDB_raw/train_id_list.txt";
          "--output_dir=data/IMDB"];
         [];
         run_flags ]
  /\ List.map has_run_flags commands = [false; false; false; true]
  /\ List.map has_some_run_flag commands = [false; false; false; true].
Proof. repeat split; vm_compute; reflexivity. Qed.

End ShellFacts.

(** ** Running the code cell *)

(** One step of the framework in the goal, by cases on how it ends. *)
Ltac step_world :=
  match goal with
  | |- context [Runtime.import_from ?w ?m ?n ?h] =>
      destruct (Runtime.import_from w m n h) as [[?o | ?e] ?h] eqn:?
  | |- context [Runtime.subscript ?w ?c ?a ?h] =>
      destruct (Runtime.subscript w c a h) as [[?o | ?e] ?h] eqn:?
  | |- context [Runtime.getattr ?w ?c ?a ?h] =>
      destruct (Runtime.getattr w c a h) as [[?o | ?e] ?h] eqn:?
  | |- context [Runtime.call ?w ?c ?a ?h] =>
      destruct (Runtime.call w c a h) as [[?o | ?e] ?h] eqn:?
  | |- context [Runtime.new_dict ?w ?v ?h] =>
      destruct (Runtime.new_dict w v h) as [?o ?h] eqn:?
  end;
  cbn [fst snd Runtime.names Runtime.heap].

(** One read of a name: a name the cell has bound is found; for
    [MultiPack], by cases on the kernel. *)
Ltac step_load :=
  first [ rewrite lookup_insert_eq
        | rewrite lookup_insert_ne by discriminate
        | match goal with
          | E : ?ns !! "MultiPack" = _ |- context [?ns !! "MultiPack"] =>
              rewrite E
          end
        | match goal with
          | |- context [?ns !! "MultiPack"] =>
              is_var ns; destruct (ns !! "MultiPack") as [?mp|] eqn:?
          end ];
  cbn [fst snd Runtime.names Runtime.heap].

Ltac unfold_cell :=
  unfold Runtime.code_cell, Runtime.import_processor,
    Runtime.import_pipeline, Runtime.make_pipeline, Runtime.make_config,
    Runtime.make_processor, Runtime.add_processor;
  unfold mbind, mret, Runtime.M_bind, Runtime.M_ret, Runtime.foreign,
    Runtime.build, Runtime.assign, Runtime.load;
  cbn [fst snd Runtime.names Runtime.heap].

(** Every way the cell can go, one goal for each. *)
Ltac run_cell := unfold_cell; repeat first [ step_world | step_load ].


Section RuntimeFacts.

Import Notebook Runtime Material.






End RuntimeFacts.

(** ** More on the configuration tree *)

Section YamlReading.

Import Yaml YamlEntries.

Lemma distinct_keys_map es : distinct_keys (YMap es) = entries_distinct [] es.
Proof. reflexivity. Qed.

Lemma leaves_map es : leaves (YMap es) = entries_leaves es.
Proof. reflexivity. Qed.

Lemma all_keys_map es : all_keys (YMap es) = entries_keys es.
Proof. reflexivity. Qed.

(** A key already seen is the key of no later entry. *)
Lemma entries_distinct_seen es : forall seen k,
  entries_distinct seen es = true ->
  existsb (String.eqb k) seen = true ->
  lookup_key k es = None.
Proof.
  induction es as [|[k' v] rest IH]; intros seen k H Hk; [reflexivity|].
  cbn [entries_distinct lookup_key] in *.
  apply andb_prop in H as [H Hrest]. apply andb_prop in H as [Hk' Hv].
  rewrite (IH (k' :: seen) k Hrest)
    by (cbn [existsb]; rewrite Hk; apply orb_true_r).
  destruct (String.eqb k k') eqn:E; [|reflexivity].
  apply String.eqb_eq in E. subst k'. rewrite Hk in Hk'. discriminate.
Qed.

(** Among distinct entries, a leaf listed under [k] is a leaf of the entry
    that [lookup_key k] finds. *)
Lemma entries_leaves_lookup es : forall seen k p l,
  entries_distinct seen es = true ->
  In (k :: p, l) (entries_leaves es) ->
  exists v, lookup_key k es = Some v /\ In (p, l) (leaves v)
            /\ distinct_keys v = true.
Proof.
  induction es as [|[k' v] rest IH]; intros seen k p l H Hin; [destruct Hin|].
  cbn [entries_distinct entries_leaves lookup_key] in *.
  apply andb_prop in H as [H Hrest]. apply andb_prop in H as [Hk' Hv].
  apply in_app_or in Hin as [Hin | Hin].
  - apply in_map_iff in Hin as [[p0 l0] [Heq Hin]].
    cbn [fst snd] in Heq. injection Heq as -> -> ->.
    rewrite (entries_distinct_seen rest (k :: seen) k Hrest)
      by (cbn [existsb]; rewrite String.eqb_refl; reflexivity).
    rewrite String.eqb_refl. exists v. auto.
  - destruct (IH _ _ _ _ Hrest Hin) as (v' & Hlk & Hin' & Hd).
    rewrite Hlk. exists v'. auto.
Qed.

Lemma entries_leaves_nonempty_path es l : ~ In ([], l) (entries_leaves es).
Proof.
  induction es as [|[k v] rest IH]; [intros []|].
  cbn [entries_leaves]. intros Hin.
  apply in_app_or in Hin as [Hin|Hin]; [|auto].
  apply in_map_iff in Hin as [[p0 l0] [Heq _]]. discriminate Heq.
Qed.

(** In a document without repeated keys, every listed leaf is reached by
    [get] under its path. *)
Lemma leaves_get_scalar p : forall t st s,
  distinct_keys t = true ->
  In (p, (st, s)) (leaves t) -> get p t = Some (YScalar st s).
Proof.
  induction p as [|k p IH]; intros t st s Hd Hin.
  - destruct t as [st' s'|es].
    + cbn in Hin. destruct Hin as [Heq|[]]. injection Heq as -> ->. reflexivity.
    + rewrite leaves_map in Hin.
      destruct (entries_leaves_nonempty_path _ _ Hin).
  - destruct t as [st' s'|es].
    + cbn in Hin. destruct Hin as [Heq|[]]. discriminate Heq.
    + rewrite leaves_map in Hin. rewrite distinct_keys_map in Hd.
      destruct (entries_leaves_lookup _ _ _ _ _ Hd Hin) as (v & Hlk & Hin' & Hdv).
      cbn [get]. rewrite Hlk. apply IH; assumption.
Qed.

(** X1: the configuration has exactly twenty-one leaves, those that
    [typed_leaves_config] lists: whatever the path, it leads to a scalar of
    value [v] if and only if the listing holds the path with [v].  The file
    writes no key twice in any mapping, so this does not depend on what a
    loader does with a repeated key. *)
Theorem config_leaves_exact sch p v :
  (value_at sch p config = Some v <-> In (p, v) (typed_leaves sch config))
  /\ length (typed_leaves sch config) = 21%nat
  /\ distinct_keys config = true.
Proof.
  split; [|split; [destruct sch; reflexivity | reflexivity]].
  split; [apply value_at_typed_leaves|].
  unfold typed_leaves, value_at. intros Hin.
  apply in_map_iff in Hin as [[p0 [st s]] [Heq Hin]].
  cbn [fst snd] in Heq. injection Heq as -> <-.
  rewrite (leaves_get_scalar _ _ _ _ config_distinct_keys Hin). reflexivity.
Qed.

(** X2: the two schemas give the same reading of the whole document, except
    at [rnn_cell_share_config] and [output_layer_share_config]: whatever the
    path (to a leaf, to a mapping, to nothing), the value at it is the same
    under YAML 1.1 and under the YAML 1.2 core schema. *)
Theorem schemas_agree_off_yes p :
  p <> rnn_cell_share_config_path ->
  p <> output_layer_share_config_path ->
  value_at Yaml11 p config = value_at Core12 p config.
Proof.
  intros H1 H2. unfold value_at.
  destruct (get p config) as [[st s|es]|] eqn:G; try reflexivity.
  apply get_scalar_in_leaves in G. vm_compute in G.
  repeat (destruct G as [G | G]);
    try (injection G as <- <- <-;
         first [ reflexivity
               | exfalso; apply H1; reflexivity
               | exfalso; apply H2; reflexivity ]).
  destruct G.
Qed.

Lemma schemas_agree_off_yes_witness :
  num_layers_path <> rnn_cell_share_config_path
  /\ num_layers_path <> output_layer_share_config_path
  /\ value_at Yaml11 num_layers_path config = value_at Core12 num_layers_path config.
Proof.
  assert (A : num_layers_path <> rnn_cell_share_config_path) by discriminate.
  assert (B : num_layers_path <> output_layer_share_config_path) by discriminate.
  split; [exact A | split; [exact B|]].
  exact (schemas_agree_off_yes num_layers_path A B).
Defined.

Lemma lookup_key_keys k' es v :
  lookup_key k' es = Some v ->
  forall k, existsb (String.eqb k) (all_keys v) = true ->
            existsb (String.eqb k) (entries_keys es) = true.
Proof.
  induction es as [|[k0 v0] rest IH]; [discriminate|].
  cbn [lookup_key entries_keys]. intros H k Hk.
  cbn [existsb]. rewrite existsb_app.
  destruct (lookup_key k' rest) as [later|] eqn:L.
  - injection H as ->. rewrite (IH eq_refl k Hk). rewrite !orb_true_r. reflexivity.
  - destruct (String.eqb k' k0); [|discriminate].
    injection H as ->. rewrite Hk. rewrite orb_true_l. apply orb_true_r.
Qed.

Lemma lookup_key_is_key k es v :
  lookup_key k es = Some v -> existsb (String.eqb k) (entries_keys es) = true.
Proof.
  revert v. induction es as [|[k0 v0] rest IH]; [discriminate|].
  cbn [lookup_key entries_keys existsb]. intros v H.
  destruct (lookup_key k rest) as [later|] eqn:L.
  - rewrite existsb_app, (IH later eq_refl). rewrite !orb_true_r. reflexivity.
  - destruct (String.eqb k k0); [reflexivity | discriminate].
Qed.

(** A key that occurs in no mapping of a document is on no path of it. *)
Lemma absent_key_no_path k p : forall t q,
  has_key k t = false -> get (p ++ k :: q)%list t = None.
Proof.
  unfold has_key. induction p as [|k' p IH]; intros t q H.
  - cbn [app get]. destruct t as [st s|es]; [reflexivity|].
    destruct (lookup_key k es) as [v|] eqn:E; [|reflexivity].
    apply lookup_key_is_key in E. rewrite all_keys_map in H. congruence.
  - cbn [app get]. destruct t as [st s|es]; [reflexivity|].
    destruct (lookup_key k' es) as [v|] eqn:E; [|reflexivity].
    apply IH. destruct (existsb (String.eqb k) (all_keys v)) eqn:Hv; [|reflexivity].
    rewrite all_keys_map in H.
    rewrite (lookup_key_keys _ _ _ E k Hv) in H. discriminate.
Qed.

(** X3: the comment above [rnn_cell_fw] names [char_embed.dim] and
    [word_emb.dim]; neither [char_embed] nor [word_emb] is a key of any
    mapping of the file, so no path through either leads anywhere; the key the
    file does have is [char_emb]. *)
Theorem comment_keys_absent p q :
  Text.contains "char_embed.dim" input_size_comment = true
  /\ Text.contains "word_emb.dim" input_size_comment = true
  /\ get (p ++ "char_embed" :: q)%list config = None
  /\ get (p ++ "word_emb" :: q)%list config = None
  /\ has_key "char_emb" config = true.
Proof.
  split; [reflexivity | split; [reflexivity|]].
  split; [apply absent_key_no_path; reflexivity|].
  split; [apply absent_key_no_path; reflexivity | reflexivity].
Qed.

End YamlReading.

(** ** More on running the code cell *)

Section CellFacts.

Import Notebook Runtime.



(** X7: in a kernel where [MultiPack] is unbound the cell never completes,
    whatever the framework does, and none of its three assignments runs:
    [nlp], [processor_config] and [processor] are bound as before.  If both
    imports succeed, the exception is [NameError] for [MultiPack], the two
    imported names are bound to the imported objects and nothing further has
    been asked of the framework. *)
Theorem unbound_multipack_stops_cell {H} (w : world H) (st : state H) :
  names st !! "MultiPack" = None ->
  (exists e, fst (code_cell w st) = Raised e)
  /\ names (snd (code_cell w st)) !! "nlp" = names st !! "nlp"
  /\ names (snd (code_cell w st)) !! "processor_config"
     = names st !! "processor_config"
  /\ names (snd (code_cell w st)) !! "processor" = names st !! "processor"
  /\ (forall rc h1 pc h2,
        import_from w processor_module "ReplacementDataAugmentProcessor" (heap st)
          = (Done rc, h1) ->
        import_from w "forte.pipeline" "Pipeline" h1 = (Done pc, h2) ->
        code_cell w st =
          (Raised (NameError "MultiPack"),
           {| names :=
                <["Pipeline" := pc]>
                  (<["ReplacementDataAugmentProcessor" := rc]> (names st));
              heap := h2 |})).
Proof.
  destruct st as [ns h0]. cbn [names heap]. intros Hmp.
  split; [|split; [|split; [|split]]].
  - run_cell; eexists; reflexivity.
  - run_cell; rewrite ?lookup_insert_ne by discriminate; reflexivity.
  - run_cell; rewrite ?lookup_insert_ne by discriminate; reflexivity.
  - run_cell; rewrite ?lookup_insert_ne by discriminate; reflexivity.
  - intros rc h1 pc h2 E1 E2. unfold_cell. rewrite E1. cbn [fst snd names heap].
    rewrite E2. cbn [fst snd names heap]. repeat step_load. reflexivity.
Qed.

Lemma unbound_multipack_stops_cell_witness :
  names (fresh_kernel 0%nat) !! "MultiPack" = None
  /\ code_cell present (fresh_kernel 0%nat) =
       (Raised (NameError "MultiPack"),
        {| names :=
             <["Pipeline" := 1%nat]>
               (<["ReplacementDataAugmentProcessor" := 0%nat]> ∅);
           heap := 0%nat |})
  /\ names (snd (code_cell present (fresh_kernel 0%nat))) !! "nlp" = None.
Proof.
  destruct (unbound_multipack_stops_cell present (fresh_kernel 0%nat) eq_refl)
    as (_ & Hnlp & _ & _ & Himports).
  split; [reflexivity | split; [|exact Hnlp]].
  exact (Himports 0%nat 0%nat 1%nat 0%nat eq_refl eq_refl).
Defined.

End CellFacts.


(** ** More on the notebook *)

Section ProseFacts.

Import Notebook Prose Material.

(** X9: read as text, the code cell binds exactly the five names of
    [bound_names], in that order (two import targets, three assignment
    targets at the first column); it reads [MultiPack] and no line of the
    notebook imports or assigns it. *)
Theorem cell_text_binds_bound_names :
  omap bound_by code_cell_source = Runtime.bound_names
  /\ mentions "Pipeline[MultiPack]()" code_cell_source = true
  /\ existsb (String.eqb "MultiPack") (omap bound_by all_lines) = false
  /\ mentions "import MultiPack" all_lines = false.
Proof. repeat split; vm_compute; reflexivity. Qed.

Lemma fold_insert_other (items : list (string * pyval)) :
  forall (m : gmap string pyval) k,
  existsb (String.eqb k) (List.map fst items) = false ->
  fold_left (fun m kv => <[fst kv := snd kv]> m) items m !! k = m !! k.
Proof.
  induction items as [|[k' v'] rest IH]; intros m k H; [reflexivity|].
  cbn [List.map fst existsb] in H. apply orb_false_elim in H as [Hk Hrest].
  cbn [fold_left fst snd]. rewrite (IH _ _ Hrest).
  apply lookup_insert_ne. intros ->. rewrite String.eqb_refl in Hk. discriminate.
Qed.

Lemma fold_insert_found (items : list (string * pyval)) :
  forall (m : gmap string pyval) k v,
  all_distinct (List.map fst items) = true ->
  In (k, v) items ->
  fold_left (fun m kv => <[fst kv := snd kv]> m) items m !! k = Some v.
Proof.
  induction items as [|[k' v'] rest IH]; intros m k v Hd Hin; [destruct Hin|].
  cbn [List.map fst all_distinct] in Hd. apply andb_prop in Hd as [Hk Hd].
  cbn [fold_left fst snd]. destruct Hin as [Heq | Hin].
  - injection Heq as -> ->.
    rewrite fold_insert_other; [apply lookup_insert_eq|].
    destruct (existsb (String.eqb k) (List.map fst rest)); [discriminate|reflexivity].
  - apply IH; assumption.
Qed.

Lemma fold_keys_distinct (items : list (string * pyval)) : forall ks,
  all_distinct (List.map fst items) = true ->
  (forall k, existsb (String.eqb k) ks = true ->
             existsb (String.eqb k) (List.map fst items) = false) ->
  fold_left (fun ks kv =>
               if existsb (String.eqb (fst kv)) ks then ks
               else (ks ++ [fst kv])%list) items ks
  = (ks ++ List.map fst items)%list.
Proof.
  induction items as [|[k v] rest IH]; intros ks Hd Hks.
  - cbn. rewrite app_nil_r. reflexivity.
  - cbn [List.map fst all_distinct] in Hd. apply andb_prop in Hd as [Hk Hd].
    cbn [fold_left fst List.map].
    destruct (existsb (String.eqb k) ks) eqn:E.
    + apply Hks in E. cbn [List.map fst existsb] in E.
      rewrite String.eqb_refl in E. discriminate.
    + rewrite IH; [rewrite <- app_assoc; reflexivity | assumption |].
      intros k0 H0. rewrite existsb_app in H0. apply orb_prop in H0 as [H0 | H0].
      * apply Hks in H0. cbn [List.map fst existsb] in H0.
        apply orb_false_elim in H0 as [_ H0]. exact H0.
      * cbn [existsb] in H0. rewrite orb_false_r in H0.
        apply String.eqb_eq in H0. subst k0.
        destruct (existsb (String.eqb k) (List.map fst rest));
          [discriminate | reflexivity].
Qed.

(** X10: a dictionary display that writes no key twice loses nothing:
    every item written can be read back under its key, and the keys of the
    dictionary are the keys written, in the order written.  (A later item with
    the same key would overwrite an earlier one.) *)
Theorem distinct_items_read_back items k v :
  all_distinct (List.map fst items) = true ->
  In (k, v) items ->
  getitem k (PDict items) = Some v
  /\ keys (PDict items) = List.map fst items.
Proof.
  intros Hd Hin. split.
  - apply fold_insert_found; assumption.
  - unfold keys. rewrite fold_keys_distinct; [reflexivity | assumption |].
    intros k0 H0. discriminate H0.
Qed.

Lemma distinct_items_read_back_witness :
  all_distinct (List.map fst processor_config_items) = true
  /\ In ("type", PStr "data_augmentation_op") processor_config_items
  /\ distinct_dict_keys processor_config = true
  /\ (getitem "type" processor_config = Some (PStr "data_augmentation_op")
      /\ keys processor_config = List.map fst processor_config_items).
Proof.
  assert (Hin : In ("type", PStr "data_augmentation_op") processor_config_items)
    by (right; right; left; reflexivity).
  split; [reflexivity | split; [exact Hin | split; [reflexivity|]]].
  exact (distinct_items_read_back processor_config_items "type"
           (PStr "data_augmentation_op") eq_refl Hin).
Defined.

(** A display that repeats a key keeps the later value. *)
Lemma repeated_item_overwritten :
  getitem "device" (PDict [("device", PStr "cpu"); ("device", PStr "cuda")])
  = Some (PStr "cuda").
Proof. reflexivity. Qed.

(** X11: the policies of [other_entry_policy] are set for entries other
    than the augmented one, as the notebook says they are: the augmented entry
    ([Token]) is not among the entries given a policy ([Document],
    [Sentence]); every policy set is [auto_align], the one policy the prose
    describes; and all three entries are classes of [ft.onto.base_ontology]. *)
Theorem other_entry_policy_excludes_augment_entry :
  (getitem "augment_entry" processor_config ≫= as_str)
    = Some "ft.onto.base_ontology.Token"
  /\ other_entries
     = ["ft.onto.base_ontology.Document"; "ft.onto.base_ontology.Sentence"]
  /\ existsb (String.eqb "ft.onto.base_ontology.Token") other_entries = false
  /\ forallb (String.eqb "auto_align") other_policies = true
  /\ existsb (String.eqb "auto_align") prose_terms = true
  /\ forallb (under "ft.onto.base_ontology")
             ("ft.onto.base_ontology.Token" :: other_entries) = true.
Proof. repeat split; vm_compute; reflexivity. Qed.

(** X12: every term the prose sets in quotes (the package of the ops, the
    processor class, five keys and a policy value) occurs in the code cell:
    the prose names nothing that the code does not contain.  Of the keys of
    [processor_config] the prose leaves one unexplained, [type]. *)
Theorem prose_terms_occur_in_code :
  prose_terms =
    ["forte.processors.data_augment.algorithms"; "data_aug_op"; "kwargs";
     "data_aug_op_config"; "ReplacementDataAugmentProcessor";
     "augment_entry"; "other_entry_policy"; "augment_entry"; "auto_align"]
  /\ forallb (fun t => mentions t code_cell_source) prose_terms = true
  /\ List.filter (fun k => negb (existsb (String.eqb k) prose_terms))
                 (keys processor_config) = ["type"].
Proof. repeat split; vm_compute; reflexivity. Qed.

End ProseFacts.

(** ** More on names and paths *)

Section SplitFacts.

Lemma split_on_nonempty sep s : Text.split_on sep s <> [].
Proof.
  destruct s as [|a rest]; cbn [Text.split_on]; [discriminate|].
  destruct (Ascii.eqb a sep); [discriminate|].
  destruct (Text.split_on sep rest); discriminate.
Qed.

Lemma concat_two sep h w ws :
  String.concat sep (h :: w :: ws)
  = String.append h (String.append sep (String.concat sep (w :: ws))).
Proof. reflexivity. Qed.

Lemma append_empty s : String.append EmptyString s = s.
Proof. reflexivity. Qed.

Lemma append_cons a s t :
  String.append (String a s) t = String a (String.append s t).
Proof. reflexivity. Qed.

(** X13: taking a dotted name or a slashed path apart loses nothing: the
    parts joined again with the separator are the string that was split, and
    no part contains the separator.  So a qualified name is its module path
    and its class, and a path is its segments. *)
Theorem split_on_join sep s :
  String.concat (String sep EmptyString) (Text.split_on sep s) = s
  /\ forallb (fun w => negb (Text.contains (String sep EmptyString) w))
             (Text.split_on sep s) = true.
Proof.
  induction s as [|a rest [IHj IHc]]; [split; reflexivity|].
  cbn [Text.split_on].
  destruct (Text.split_on sep rest) as [|w ws] eqn:S;
    [destruct (split_on_nonempty _ _ S)|].
  destruct (Ascii.eqb a sep) eqn:E.
  - apply Ascii.eqb_eq in E. subst a. split.
    + rewrite concat_two, append_empty, append_cons, append_empty.
      f_equal. exact IHj.
    + cbn [forallb] in *. rewrite IHc. reflexivity.
  - split.
    + destruct ws as [|w' ws'].
      * cbn [String.concat] in *. f_equal. exact IHj.
      * rewrite concat_two in *. rewrite append_cons. f_equal. exact IHj.
    + cbn [forallb] in *. apply andb_prop in IHc as [Hw Hws].
      rewrite Hws, andb_true_r.
      cbn [Text.contains String.prefix].
      destruct (ascii_dec sep a) as [-> | _];
        [rewrite Ascii.eqb_refl in E; discriminate|].
      cbn [orb]. exact Hw.
Qed.

End SplitFacts.

(** ** More on the command sequence *)

Section OptionFacts.

Import Shell Options.

(** X14: the format step keeps what it reads and what it writes apart: its
    two inputs lie inside [data/IMDB_raw], its output directory [data/IMDB]
    is neither inside that directory nor around it, although its name is the
    beginning of the other's; and it is the only step given options with
    values. *)
Theorem format_step_directories :
  (format_step ≫= option_value "--raw_data_dir") = Some "data/IMDB_raw/aclImdb"
  /\ (format_step ≫= option_value "--train_id_path")
     = Some "data/IMDB_raw/train_id_list.txt"
  /\ (format_step ≫= option_value "--output_dir") = Some "data/IMDB"
  /\ inside "data/IMDB_raw" "data/IMDB_raw/aclImdb" = true
  /\ inside "data/IMDB_raw" "data/IMDB_raw/train_id_list.txt" = true
  /\ inside "data/IMDB_raw" "data/IMDB" = false
  /\ inside "data/IMDB" "data/IMDB_raw" = false
  /\ String.prefix "data/IMDB" "data/IMDB_raw" = true
  /\ List.map (fun c => length (omap option_of (args c))) commands
     = [0; 3; 0; 0]%nat.
Proof. repeat split; vm_compute; reflexivity. Qed.

End OptionFacts.
